(* Verification development for the ingest service of the siem-platform
   repository (Go): the tenant validator and JWT middleware, the middleware
   chain, the ingest handler, the mock publisher, and the windowed state
   store of the detection side. *)

From Stdlib Require Import ZArith String Ascii List Lia.
From stdpp Require Import base gmap strings list.

Open Scope Z_scope.

(* ------------------------------------------------------------------ *)
(** * Data model: internal/models/event.go *)

(** A value of a JSON object decoded into [interface{}] (claims of a token,
    the attributes bag of an event). *)
Inductive JVal :=
| JStr (s : string)
| JNum (z : Z)
| JBool (b : bool)
| JNull
| JOther.

Record Source := mkSource {
  system : string;
  integration : string;
  host : string
}.

Record Actor := mkActor {
  actor_type : string;
  actor_id : string;
  actor_name : string;
  actor_email : string
}.

Record Target := mkTarget {
  target_type : string;
  target_id : string;
  target_name : string
}.

Record Event := mkEvent {
  tenant_id : string;
  event_id : string;
  timestamp : string;
  source : Source;
  category : string;
  severity : Z;
  actor : option Actor;
  target : option Target;
  action : string;
  outcome : string;
  attributes : gmap string JVal;
  raw_ref : string;
  tags : list string
}.

(* ------------------------------------------------------------------ *)
(** * HTTP requests, responses and handlers *)

(** The parts of an [*http.Request] the ingest path reads.  Header fields
    hold what [r.Header.Get] returns, the empty string when the header is
    absent.  [req_body] is [None] when [io.ReadAll(r.Body)] fails.  The
    context values set by the middleware are [None] when not set. *)
Record Request := mkRequest {
  req_method : string;
  req_path : string;
  hdr_tenant : string;          (* X-Tenant-ID *)
  hdr_authorization : string;   (* Authorization *)
  req_body : option string;
  remote_addr : string;
  ctx_tenant_id : option string;
  ctx_user_id : option string
}.

Definition with_ctx_tenant (r : Request) (tid : string) : Request :=
  mkRequest r.(req_method) r.(req_path) r.(hdr_tenant) r.(hdr_authorization)
    r.(req_body) r.(remote_addr) (Some tid) r.(ctx_user_id).

Definition with_ctx_user (r : Request) (uid : string) : Request :=
  mkRequest r.(req_method) r.(req_path) r.(hdr_tenant) r.(hdr_authorization)
    r.(req_body) r.(remote_addr) r.(ctx_tenant_id) (Some uid).

(** The values [uuid.New().String()] and [time.Now().UTC().Format(...)]
    return while a request is handled. *)
Record Env := mkEnv {
  uuid_new : string;
  time_now : string
}.

(** What a handler writes: [http.Error] with a status code and message, the
    202 response of an accepted event carrying its event id, or a runtime
    panic (a failed type assertion). *)
Inductive Response :=
| HttpError (code : Z) (msg : string)
| Accepted (eid : string)
| Panic (msg : string).

(** internal/publisher: the [Publisher] interface; [Publish] returns the
    error ([None] for nil) and the publisher's new state. *)
Class Publisher (P : Type) := Publish : string -> Event -> P -> option string * P.

Definition Handler (P : Type) := Request -> Env -> P -> Response * P.
Definition Middleware (P : Type) := Handler P -> Handler P.

(** Go's [strings.HasPrefix] and [strings.TrimPrefix]. *)
Fixpoint has_prefix (pre s : string) : bool :=
  match pre, s with
  | EmptyString, _ => true
  | String c pre', String d s' => Ascii.eqb c d && has_prefix pre' s'
  | String _ _, EmptyString => false
  end.

(** [s[n:]] on a string of bytes. *)
Fixpoint str_drop (n : nat) (s : string) : string :=
  match n, s with
  | O, _ => s
  | S n', String _ s' => str_drop n' s'
  | S _, EmptyString => EmptyString
  end.

Definition trim_prefix (pre s : string) : string :=
  if has_prefix pre s then str_drop (String.length pre) s else s.

Definition Claims := gmap string JVal.

Section Ingest.
Context {P : Type} `{Publisher P}.

(** [encoding/json.Unmarshal] of a body into a zero [models.Event]. *)
Variable json_unmarshal : string -> option Event.

(** [jwt.Parse(tokenString, keyFunc)] with the key function of JWTAuth:
    [Some claims] when it returns no error and [token.Valid], [None]
    otherwise.  Its claims are always [jwt.MapClaims]. *)
Variable jwt_parse : string -> string -> option Claims.

(** internal/middleware/tenant.go: TenantValidator *)
Definition TenantValidator (jwtPublicKey : string) : Middleware P :=
  fun next r env s =>
    let tid := r.(hdr_tenant) in
    if String.eqb tid EmptyString then
      (HttpError 400 "Missing X-Tenant-ID header", s)
    else if (Nat.ltb (String.length tid) 3 || Nat.ltb 63 (String.length tid))%bool then
      (HttpError 400 "Invalid tenant ID format", s)
    else next (with_ctx_tenant r tid) env s.

(** middleware JWTAuth *)
Definition JWTAuth (publicKey : string) : Middleware P :=
  fun next r env s =>
    let authHeader := r.(hdr_authorization) in
    if String.eqb authHeader EmptyString then
      (HttpError 401 "Missing Authorization header", s)
    else if negb (has_prefix "Bearer " authHeader) then
      (HttpError 401 "Invalid Authorization header format", s)
    else
      let tokenString := trim_prefix "Bearer " authHeader in
      if String.eqb publicKey EmptyString then next r env s
      else
        match jwt_parse publicKey tokenString with
        | None => (HttpError 401 "Invalid token", s)
        | Some claims =>
            match claims !! "tenant_id" with
            | Some (JStr jwtTenantID) =>
                match r.(ctx_tenant_id) with
                | None => (Panic "interface conversion: interface {} is nil, not string", s)
                | Some headerTenantID =>
                    if negb (String.eqb jwtTenantID headerTenantID) then
                      (HttpError 403 "Tenant ID mismatch", s)
                    else
                      let r' := match claims !! "sub" with
                                | Some (JStr userID) => with_ctx_user r userID
                                | _ => r
                                end in
                      next r' env s
                end
            | _ => (HttpError 401 "Missing tenant_id in token", s)
            end
        end.

(** middleware RequestLogger: the status wrapper and the log line do not
    change what the wrapped handler does. *)
Definition RequestLogger : Middleware P := fun next r env s => next r env s.

(** models/event.go: Chain, a loop from the last middleware to the first. *)
Definition Chain (handler : Handler P) (middleware : list (Middleware P)) : Handler P :=
  fold_left (fun h m => m h) (rev middleware) handler.

(** The enrichment step of IngestEvents. *)
Definition enrich (ev : Event) (tid : string) (env : Env) (r : Request) : Event :=
  mkEvent tid env.(uuid_new) env.(time_now)
    (mkSource ev.(source).(system) ev.(source).(integration) r.(remote_addr))
    ev.(category) ev.(severity) ev.(actor) ev.(target) ev.(action) ev.(outcome)
    ev.(attributes) ev.(raw_ref) ev.(tags).

Definition ingest_topic (tid : string) : string := ("raw.events." ++ tid)%string.

(** handlers: IngestHandler.IngestEvents *)
Definition IngestEvents : Handler P :=
  fun r env s =>
    if negb (String.eqb r.(req_method) "POST") then
      (HttpError 405 "Method not allowed", s)
    else
      match r.(ctx_tenant_id) with
      | None => (HttpError 401 "Unauthorized", s)
      | Some tenantID =>
          if String.eqb tenantID EmptyString then (HttpError 401 "Unauthorized", s)
          else
            match r.(req_body) with
            | None => (HttpError 400 "Bad request", s)
            | Some body =>
                match json_unmarshal body with
                | None => (HttpError 400 "Invalid JSON", s)
                | Some event =>
                    if String.eqb event.(category) EmptyString then
                      (HttpError 400 "Missing required field: category", s)
                    else
                      let event' := enrich event tenantID env r in
                      let topic := ingest_topic tenantID in
                      match Publish topic event' s with
                      | (Some _, s') => (HttpError 500 "Internal server error", s')
                      | (None, s') => (Accepted event'.(event_id), s')
                      end
                end
            end
      end.

(** main.go: [authMux] serves only /v1/ingest/events. *)
Definition authMux : Handler P :=
  fun r env s =>
    if String.eqb r.(req_path) "/v1/ingest/events" then IngestEvents r env s
    else (HttpError 404 "404 page not found", s).

(** main.go: logging -> tenant validation -> JWT auth. *)
Definition ingest_chain (jwtPublicKey : string) : Handler P :=
  Chain authMux
    [RequestLogger; TenantValidator jwtPublicKey; JWTAuth jwtPublicKey].
End Ingest.

(* ------------------------------------------------------------------ *)
(** * internal/publisher/mock.go: MockPublisher *)

Record MockPublisher := mkMock { published : gmap string (list Event) }.

Definition NewMockPublisher : MockPublisher := mkMock ∅.

Definition GetPublished (topic : string) (m : MockPublisher) : list Event :=
  default [] (m.(published) !! topic).

#[global] Instance MockPublisher_Publisher : Publisher MockPublisher :=
  fun topic event m =>
    (None, mkMock (<[topic := GetPublished topic m ++ [event]]> m.(published))).

(** An event decoded from a body whose JSON carried the caller's own
    tenant_id and event_id values. *)
Definition with_caller_ids (ev : Event) (tid eid : string) : Event :=
  mkEvent tid eid ev.(timestamp) ev.(source) ev.(category) ev.(severity)
    ev.(actor) ev.(target) ev.(action) ev.(outcome) ev.(attributes)
    ev.(raw_ref) ev.(tags).

(** Publishing a sequence of (topic, event) pairs, in order. *)
Definition publish_all (ops : list (string * Event)) (m : MockPublisher) : MockPublisher :=
  fold_left (fun m' op => snd (Publish op.1 op.2 m')) ops m.

(* ------------------------------------------------------------------ *)
(** * Windowed State Store *)

Module WindowedStore.

(** Modelled from the spec: the Windowed State Store of the detection
    side (section 4.3), whose code is not among the sources.  An entry
    keyed by (tenant_id, key) holds the timestamps (seconds) of its
    observations in order.  [increment] records one observation at the
    current time, discards the observations that have left the window and
    returns the count remaining including the new one; [get] does the same
    pruning without adding an observation.  The window's boundary follows
    section 8 and the glossary: an observation expires exactly
    window_seconds after it was recorded, so one at [now - window_seconds]
    is discarded along with every older one. *)
Abbreviation Store := (gmap (string * string) (list Z)).

Definition prune (now window_seconds : Z) (obs : list Z) : list Z :=
  List.filter (fun ts => Z.ltb (now - window_seconds) ts) obs.

Definition entry (tenant key : string) (st : Store) : list Z :=
  default [] (st !! (tenant, key)).

Definition increment (tenant key : string) (window_seconds now : Z) (st : Store)
    : nat * Store :=
  let obs := prune now window_seconds (entry tenant key st) ++ [now] in
  (length obs, <[(tenant, key) := obs]> st).

Definition get (tenant key : string) (window_seconds now : Z) (st : Store)
    : nat * Store :=
  let obs := prune now window_seconds (entry tenant key st) in
  (length obs, <[(tenant, key) := obs]> st).

(** The store's operations, as a caller issues them over time. *)
Inductive Op :=
| OpIncrement (tenant key : string) (window_seconds now : Z)
| OpGet (tenant key : string) (window_seconds now : Z).

Definition op_key (op : Op) : string * string :=
  match op with OpIncrement t k _ _ | OpGet t k _ _ => (t, k) end.
Definition op_window (op : Op) : Z :=
  match op with OpIncrement _ _ w _ | OpGet _ _ w _ => w end.
Definition op_time (op : Op) : Z :=
  match op with OpIncrement _ _ _ n | OpGet _ _ _ n => n end.
(** The observations an operation records. *)
Definition op_added (op : Op) : list Z :=
  match op with OpIncrement _ _ _ n => [n] | OpGet _ _ _ _ => [] end.

Definition step (st : Store) (op : Op) : Store :=
  match op with
  | OpIncrement t k w n => snd (increment t k w n st)
  | OpGet t k w n => snd (get t k w n st)
  end.

Fixpoint run (ops : list Op) (st : Store) : Store :=
  match ops with
  | [] => st
  | op :: ops' => run ops' (step st op)
  end.

End WindowedStore.

(* ------------------------------------------------------------------ *)
(** * Sample inputs *)

(** A double quote, for JSON bodies. *)
Definition dq : string := String (ascii_of_nat 34) EmptyString.
Definition jstr (s : string) : string := (dq ++ s ++ dq)%string.

Definition zero_event : Event :=
  mkEvent EmptyString EmptyString EmptyString
    (mkSource EmptyString EmptyString EmptyString)
    EmptyString 0 None None EmptyString EmptyString ∅ EmptyString [].

Definition event_with_category (c : string) : Event :=
  mkEvent EmptyString EmptyString EmptyString
    (mkSource EmptyString EmptyString EmptyString)
    c 0 None None EmptyString EmptyString ∅ EmptyString [].

(** Bodies {"category":"auth"}, {"category":"bogus"} and {"severity":5}. *)
Definition body_auth : string := ("{" ++ jstr "category" ++ ":" ++ jstr "auth" ++ "}")%string.
Definition body_bogus : string := ("{" ++ jstr "category" ++ ":" ++ jstr "bogus" ++ "}")%string.
Definition body_no_category : string := ("{" ++ jstr "severity" ++ ":5}")%string.

(** [encoding/json.Unmarshal] on the sample bodies (what it decodes them to
    in a zero [models.Event]); other bodies are treated as invalid JSON. *)
Definition sample_unmarshal (b : string) : option Event :=
  if String.eqb b body_auth then Some (event_with_category "auth")
  else if String.eqb b body_bogus then Some (event_with_category "bogus")
  else if String.eqb b body_no_category then
    Some (mkEvent EmptyString EmptyString EmptyString
            (mkSource EmptyString EmptyString EmptyString)
            EmptyString 5 None None EmptyString EmptyString ∅ EmptyString [])
  else None.

(** A token parser for two sample tokens: "tok-acme" carries the claim
    tenant_id = acme-corp, "tok-other" carries tenant_id = other-corp;
    any other token is invalid.  It stands for a verifier that accepts
    these tokens, and serves only to instantiate statements proved for every
    parser: with JWTAuth's own keyfunc, which hands the key to the RSA
    verifier as []byte (refused by it) and refuses every other signing
    method itself, jwt.Parse fails on every token once a key is set; that
    behaviour is [keyed_jwt_parse] below. *)
Definition sample_jwt_parse (key tok : string) : option Claims :=
  if String.eqb tok "tok-acme" then Some {[ "tenant_id" := JStr "acme-corp" ]}
  else if String.eqb tok "tok-other" then Some {[ "tenant_id" := JStr "other-corp" ]}
  else None.

(** jwt.Parse with JWTAuth's keyfunc under a configured key: every token
    is rejected. *)
Definition keyed_jwt_parse (key tok : string) : option Claims := None.

Definition sample_request (tenant auth : string) (method body : string) : Request :=
  mkRequest method "/v1/ingest/events" tenant auth (Some body) "10.0.0.7:5555" None None.

Definition sample_env : Env := mkEnv "uuid-1" "2026-01-21T20:00:00Z".

Definition run_chain (key : string) (r : Request) : Response * MockPublisher :=
  ingest_chain sample_unmarshal sample_jwt_parse key r sample_env NewMockPublisher.

Example run_ok :
  fst (run_chain EmptyString (sample_request "acme-corp" "Bearer tok-acme" "POST" body_auth))
  = Accepted "uuid-1".
Proof. vm_compute. reflexivity. Qed.

Example run_keyed :
  fst (ingest_chain sample_unmarshal keyed_jwt_parse "k"
         (sample_request "acme-corp" "Bearer tok-acme" "POST" body_auth) sample_env
         NewMockPublisher)
  = HttpError 401 "Invalid token".
Proof. vm_compute. reflexivity. Qed.

Example run_dev :
  fst (run_chain EmptyString (sample_request "acme-corp" "Bearer tok-other" "POST" body_auth))
  = Accepted "uuid-1".
Proof. vm_compute. reflexivity. Qed.

Example run_nocat :
  fst (run_chain EmptyString (sample_request "acme-corp" "Bearer tok-acme" "POST" body_no_category))
  = HttpError 400 "Missing required field: category".
Proof. vm_compute. reflexivity. Qed.

Example ws1 :
  fst (WindowedStore.get "acme" "u" 300 299 (snd (WindowedStore.increment "acme" "u" 300 0 ∅))) = 1%nat /\
  fst (WindowedStore.get "acme" "u" 300 300 (snd (WindowedStore.increment "acme" "u" 300 0 ∅))) = 0%nat.
Proof. vm_compute. split; reflexivity. Qed.

(** Operations on the store after an increment at t = 0: an increment of
    the same entry at 100 and a get of another entry. *)
Definition ws_ops : list WindowedStore.Op :=
  [WindowedStore.OpIncrement "acme-corp" "user123" 300 100;
   WindowedStore.OpGet "acme-corp" "other" 60 200].

(* ------------------------------------------------------------------ *)
(** * internal/config/config.go *)

(** The process environment; [os.Getenv] gives the empty string for an
    unset variable. *)
Abbreviation Environ := (gmap string string).

Definition Getenv (vars : Environ) (key : string) : string :=
  default EmptyString (vars !! key).

Record Config := mkConfig {
  Port : string;
  NATSURL : string;
  JWTPublicKey : string;
  LogLevel : string
}.

Definition getEnv (vars : Environ) (key defaultValue : string) : string :=
  let value := Getenv vars key in
  if negb (String.eqb value EmptyString) then value else defaultValue.

Definition Load (vars : Environ) : Config :=
  mkConfig (getEnv vars "PORT" "8080")
           (getEnv vars "NATS_URL" "nats://nats:4222")
           (getEnv vars "JWT_PUBLIC_KEY" EmptyString)
           (getEnv vars "LOG_LEVEL" "info").

(* ------------------------------------------------------------------ *)
(** * handlers/health.go and the server mux of main.go *)

(** What the server writes for a request: the response of a handler of the
    ingest path, a 200 with a content type and body, or the 301 redirect
    [http.ServeMux] sends for a subtree root named without its slash. *)
Inductive ServerResponse :=
| Handled (resp : Response)
| Ok200 (content_type body : string)
| MovedPermanently (location : string).

Definition newline : string := String (ascii_of_nat 10) EmptyString.

(** [json.NewEncoder(w).Encode(map[string]string{"status": v})]. *)
Definition status_json (v : string) : string :=
  ("{" ++ jstr "status" ++ ":" ++ jstr v ++ "}" ++ newline)%string.

Definition HealthHandler : ServerResponse := Ok200 "application/json" (status_json "healthy").
Definition ReadyHandler : ServerResponse := Ok200 "application/json" (status_json "ready").
Definition MetricsHandler : ServerResponse :=
  Ok200 "text/plain" ("# No metrics yet" ++ newline)%string.

(** main.go: the top-level [mux]: /health, /ready and /metrics with no
    middleware, the subtree /v1/ through the middleware chain, and
    [http.ServeMux]'s 301 for /v1 and 404 for every other path.  The path
    is the one the mux matches, already in clean form. *)
Definition server {P : Type} `{Publisher P}
    (json_unmarshal : string -> option Event) (jwt_parse : string -> string -> option Claims)
    (cfg : Config) (r : Request) (env : Env) (s : P) : ServerResponse * P :=
  let path := r.(req_path) in
  if String.eqb path "/health" then (HealthHandler, s)
  else if String.eqb path "/ready" then (ReadyHandler, s)
  else if String.eqb path "/metrics" then (MetricsHandler, s)
  else if has_prefix "/v1/" path then
    let '(resp, s') := ingest_chain json_unmarshal jwt_parse cfg.(JWTPublicKey) r env s in
    (Handled resp, s')
  else if String.eqb path "/v1" then (MovedPermanently "/v1/", s)
  else (Handled (HttpError 404 "404 page not found"), s).


(** A sequence of requests handled one after another by one handler over
    one publisher; the responses in order and the final publisher. *)
Fixpoint serve_all {P : Type} (handler : Handler P) (reqs : list (Request * Env)) (s : P)
    : list Response * P :=
  match reqs with
  | [] => ([], s)
  | (r, env) :: rest =>
      let '(resp, s1) := handler r env s in
      let '(resps, s2) := serve_all handler rest s1 in
      (resp :: resps, s2)
  end.

(** The event ids answered to the accepted requests of tenant [t], in
    order. *)
Fixpoint accepted_ids (t : string) (reqs : list (Request * Env)) (resps : list Response)
    : list string :=
  match reqs, resps with
  | (r, _) :: reqs', Accepted eid :: resps' =>
      if String.eqb r.(hdr_tenant) t then eid :: accepted_ids t reqs' resps'
      else accepted_ids t reqs' resps'
  | _ :: reqs', _ :: resps' => accepted_ids t reqs' resps'
  | _, _ => []
  end.

(** Every event the mock holds lies on the topic of its own tenant. *)
Definition topics_tenant_scoped (m : MockPublisher) : Prop :=
  forall topic evs ev, m.(published) !! topic = Some evs -> ev ∈ evs ->
    topic = ingest_topic ev.(tenant_id).

(** A request outside the ingest path, and a dev-mode request whose token names another tenant. *)
Definition req_other_path : Request :=
  mkRequest "POST" "/v1/other" "acme-corp" "Bearer tok-acme" (Some body_auth)
    "10.0.0.7:5555" None None.


(* ------------------------------------------------------------------ *)
(** * Theorems *)

Section ChainFacts.
Context {P : Type}.

Lemma Chain_cons (handler : Handler P) (m : Middleware P) (ms : list (Middleware P)) :
  Chain handler (m :: ms) = m (Chain handler ms).
Proof. unfold Chain. simpl. rewrite fold_left_app. reflexivity. Qed.
End ChainFacts.

Lemma ingest_chain_eq {P : Type} `{Publisher P}
    (json_unmarshal : string -> option Event) (jwt_parse : string -> string -> option Claims)
    (jwtPublicKey : string) :
  ingest_chain json_unmarshal jwt_parse jwtPublicKey
  = RequestLogger (TenantValidator jwtPublicKey
                     (JWTAuth jwt_parse jwtPublicKey (authMux json_unmarshal))).
Proof. reflexivity. Qed.

Lemma has_prefix_app (pre rest : string) : has_prefix pre (pre ++ rest) = true.
Proof. induction pre as [|c pre IH]; simpl; [reflexivity|]. rewrite Ascii.eqb_refl. exact IH. Qed.

Lemma str_drop_app (pre rest : string) : str_drop (String.length pre) (pre ++ rest) = rest.
Proof. induction pre as [|c pre IH]; simpl; [reflexivity|]. exact IH. Qed.

Lemma trim_prefix_app (pre rest : string) : trim_prefix pre (pre ++ rest) = rest.
Proof. unfold trim_prefix. rewrite has_prefix_app. apply str_drop_app. Qed.

Lemma has_prefix_split (pre s : string) :
  has_prefix pre s = true -> s = (pre ++ trim_prefix pre s)%string.
Proof.
  intros Hp. unfold trim_prefix. rewrite Hp. clear -Hp. revert s Hp.
  induction pre as [|c pre IH]; intros [|d s]; simpl;
    try (intros Hx; discriminate Hx); try (intros; reflexivity).
  intros Hp. apply andb_prop in Hp as [Hc Hp].
  apply Ascii.eqb_eq in Hc. subst d.
  change (String c s = String c (pre ++ str_drop (String.length pre) s)%string).
  f_equal. apply IH, Hp.
Qed.

Lemma has_prefix_false_trim (pre s : string) :
  has_prefix pre s = false -> trim_prefix pre s = s.
Proof. intros Hp. unfold trim_prefix. rewrite Hp. reflexivity. Qed.

Arguments has_prefix : simpl never.
Arguments trim_prefix : simpl never.

Lemma ingest_topic_inj (t1 t2 : string) : ingest_topic t1 = ingest_topic t2 -> t1 = t2.
Proof.
  unfold ingest_topic. generalize "raw.events."%string as pre.
  induction pre as [|c pre IH]; simpl; intros Heq; [exact Heq|].
  injection Heq as Heq. exact (IH Heq).
Qed.

Lemma prune_app (now W : Z) (l1 l2 : list Z) :
  WindowedStore.prune now W (l1 ++ l2)
  = WindowedStore.prune now W l1 ++ WindowedStore.prune now W l2.
Proof. apply List.filter_app. Qed.

Lemma prune_comm (u t W : Z) (l : list Z) :
  WindowedStore.prune u W (WindowedStore.prune t W l)
  = WindowedStore.prune t W (WindowedStore.prune u W l).
Proof.
  unfold WindowedStore.prune. induction l as [|x l IH]; [reflexivity|]. simpl.
  destruct (Z.ltb (t - W) x) eqn:E1; destruct (Z.ltb (u - W) x) eqn:E2;
    simpl; rewrite ?E1, ?E2, IH; reflexivity.
Qed.

Lemma prune_absorb (t q W : Z) (l : list Z) :
  t <= q -> WindowedStore.prune q W (WindowedStore.prune t W l) = WindowedStore.prune q W l.
Proof.
  intros Hle. unfold WindowedStore.prune. induction l as [|x l IH]; [reflexivity|]. simpl.
  destruct (Z.ltb (t - W) x) eqn:E1; destruct (Z.ltb (q - W) x) eqn:E2;
    simpl; rewrite ?E2, ?IH; try reflexivity.
  apply Z.ltb_ge in E1. apply Z.ltb_lt in E2. lia.
Qed.

Lemma prune_single (u W t : Z) (b : bool) :
  WindowedStore.prune u W (if b then [t] else [])
  = if (b && Z.ltb (u - W) t)%bool then [t] else [].
Proof. unfold WindowedStore.prune. destruct b; simpl; [destruct (Z.ltb (u - W) t)|]; reflexivity. Qed.

Lemma entry_step_same (tenant key : string) (st : WindowedStore.Store) (op : WindowedStore.Op) :
  WindowedStore.op_key op = (tenant, key) ->
  WindowedStore.entry tenant key (WindowedStore.step st op)
  = WindowedStore.prune (WindowedStore.op_time op) (WindowedStore.op_window op)
      (WindowedStore.entry tenant key st) ++ WindowedStore.op_added op.
Proof.
  destruct op as [t0 k0 w n | t0 k0 w n]; cbn [WindowedStore.op_key]; intros Hk;
    injection Hk as -> ->;
    unfold WindowedStore.step, WindowedStore.increment, WindowedStore.get; cbn [snd];
    set (o := WindowedStore.prune _ _ _); unfold WindowedStore.entry at 1;
    rewrite lookup_insert_eq; cbn [default id WindowedStore.op_added];
    rewrite ?app_nil_r; reflexivity.
Qed.

Lemma entry_step_other (tenant key : string) (st : WindowedStore.Store) (op : WindowedStore.Op) :
  WindowedStore.op_key op <> (tenant, key) ->
  WindowedStore.entry tenant key (WindowedStore.step st op) = WindowedStore.entry tenant key st.
Proof.
  destruct op as [t0 k0 w n | t0 k0 w n]; cbn [WindowedStore.op_key]; intros Hk;
    unfold WindowedStore.step, WindowedStore.increment, WindowedStore.get, WindowedStore.entry;
    cbn [snd]; rewrite lookup_insert_ne by congruence; reflexivity.
Qed.

(** Two runs of the same operations, one from a store that also holds an
    observation at t for the entry: the entry differs only by that
    observation, which survives while every operation on the entry so far
    left it inside its window. *)
Lemma run_entry_split (tenant key : string) (W t : Z) (ops : list WindowedStore.Op) :
  Forall (fun op => WindowedStore.op_key op = (tenant, key) -> WindowedStore.op_window op = W) ops ->
  forall st0 st1 A B (b : bool),
  WindowedStore.entry tenant key st0 = A ++ B ->
  WindowedStore.entry tenant key st1 = WindowedStore.prune t W A ++ (if b then [t] else []) ++ B ->
  exists A' B' (b' : bool),
    WindowedStore.entry tenant key (WindowedStore.run ops st0) = A' ++ B' /\
    WindowedStore.entry tenant key (WindowedStore.run ops st1)
      = WindowedStore.prune t W A' ++ (if b' then [t] else []) ++ B' /\
    (b' = true <-> b = true /\
       Forall (fun op => WindowedStore.op_key op = (tenant, key) ->
                         WindowedStore.op_time op - W < t) ops).
Proof.
  induction 1 as [|op ops Hop Hops IH]; intros st0 st1 A B b E0 E1.
  - exists A, B, b. split; [exact E0|]. split; [exact E1|].
    split; [intros Hb; split; [exact Hb | constructor] | intros [Hb _]; exact Hb].
  - cbn [WindowedStore.run].
    destruct (decide (WindowedStore.op_key op = (tenant, key))) as [Hk|Hk].
    + pose proof (Hop Hk) as Hw.
      set (u := WindowedStore.op_time op).
      destruct (IH (WindowedStore.step st0 op) (WindowedStore.step st1 op)
                  (WindowedStore.prune u W A)
                  (WindowedStore.prune u W B ++ WindowedStore.op_added op)
                  (b && Z.ltb (u - W) t)%bool) as (A' & B' & b' & F0 & F1 & Hb).
      * rewrite entry_step_same by exact Hk. rewrite E0, Hw, prune_app, app_assoc. reflexivity.
      * rewrite entry_step_same by exact Hk.
        rewrite E1, Hw, !prune_app, prune_comm, prune_single, !app_assoc. reflexivity.
      * exists A', B', b'. split; [exact F0|]. split; [exact F1|].
        rewrite Hb, andb_true_iff, Z.ltb_lt, Forall_cons. split.
        -- intros [[Hb1 Hlt] Hf]. split; [exact Hb1|]. split; [intros _; exact Hlt | exact Hf].
        -- intros [Hb1 [Hh Hf]]. split; [split; [exact Hb1 | exact (Hh Hk)] | exact Hf].
    + destruct (IH (WindowedStore.step st0 op) (WindowedStore.step st1 op) A B b)
        as (A' & B' & b' & F0 & F1 & Hb).
      * rewrite entry_step_other by exact Hk. exact E0.
      * rewrite entry_step_other by exact Hk. exact E1.
      * exists A', B', b'. split; [exact F0|]. split; [exact F1|].
        rewrite Hb, Forall_cons. split.
        -- intros [Hb1 Hf]. split; [exact Hb1|]. split; [intros Hk'; contradiction | exact Hf].
        -- intros [Hb1 [_ Hf]]. split; [exact Hb1 | exact Hf].
Qed.

Ltac unfold_chain :=
  unfold RequestLogger, TenantValidator, JWTAuth, authMux, IngestEvents in *.

(** An accepted request went through exactly one [Publish]: the enriched
    decoded body, on the topic of its X-Tenant-ID header. *)
Lemma ingest_chain_accepted {P : Type} `{Publisher P}
    (json_unmarshal : string -> option Event) (jwt_parse : string -> string -> option Claims)
    (jwtPublicKey : string) (r : Request) (env : Env) (s s' : P) (eid : string) :
  ingest_chain json_unmarshal jwt_parse jwtPublicKey r env s = (Accepted eid, s') ->
  exists body ev,
    r.(req_body) = Some body /\ json_unmarshal body = Some ev /\
    eid = env.(uuid_new) /\
    Publish (ingest_topic r.(hdr_tenant)) (enrich ev r.(hdr_tenant) env r) s = (None, s').
Proof.
  intros Hrun. rewrite ingest_chain_eq in Hrun. unfold_chain.
  repeat (case_match; simplify_eq/=); do 2 eexists; split_and!; eauto.
Qed.

(** C9: [Chain handler [m1; ...; mn]] is [m1 (m2 (... (mn handler)))], the
    first-listed middleware outermost; so the ingest service's chain is the
    request logger around the tenant validator around JWT authentication
    around the ingest mux. *)
Theorem C9_chain_first_outermost {P : Type} `{Publisher P}
    (json_unmarshal : string -> option Event) (jwt_parse : string -> string -> option Claims)
    (jwtPublicKey : string) :
  (forall (handler : Handler P) (ms : list (Middleware P)),
      Chain handler ms = fold_right (fun m h => m h) handler ms) /\
  ingest_chain json_unmarshal jwt_parse jwtPublicKey
  = RequestLogger (TenantValidator jwtPublicKey
                     (JWTAuth jwt_parse jwtPublicKey (authMux json_unmarshal))).
Proof.
  split.
  - intros handler ms. induction ms as [|m ms IH]; [reflexivity|].
    rewrite Chain_cons, IH. reflexivity.
  - unfold ingest_chain. rewrite !Chain_cons. reflexivity.
Qed.

(** C10: a [Publish] on the MockPublisher returns nil and appends the event
    to the sequence of exactly its topic, every other topic's sequence is
    unchanged; after a run of publishes [GetPublished topic] is the events
    published to that topic in order, empty for a topic never used. *)
Theorem C10_mock_publish_frame (topic : string) (event : Event) (m : MockPublisher) :
  fst (Publish topic event m) = None /\
  GetPublished topic (snd (Publish topic event m)) = GetPublished topic m ++ [event] /\
  (forall other, other <> topic ->
     GetPublished other (snd (Publish topic event m)) = GetPublished other m) /\
  GetPublished topic NewMockPublisher = [] /\
  (forall (ops : list (string * Event)) (t : string),
     GetPublished t (publish_all ops NewMockPublisher)
     = map snd (List.filter (fun op => String.eqb op.1 t) ops)).
Proof.
  assert (Hstep : forall t tp ev m',
    GetPublished t (snd (Publish tp ev m'))
    = if String.eqb tp t then GetPublished t m' ++ [ev] else GetPublished t m').
  { intros t tp ev m'. unfold GetPublished at 1. simpl.
    destruct (String.eqb_spec tp t) as [->|Hne].
    - rewrite lookup_insert_eq. reflexivity.
    - rewrite lookup_insert_ne by congruence. reflexivity. }
  split; [reflexivity|].
  split; [rewrite Hstep, String.eqb_refl; reflexivity|].
  split.
  { intros other Hne. rewrite Hstep.
    destruct (String.eqb_spec topic other); [congruence|reflexivity]. }
  split; [reflexivity|].
  intros ops t.
  assert (Hgen : forall m0,
    GetPublished t (publish_all ops m0)
    = GetPublished t m0 ++ map snd (List.filter (fun op => String.eqb op.1 t) ops)).
  { induction ops as [|[tp ev] ops IH]; intros m0.
    - simpl. rewrite app_nil_r. reflexivity.
    - unfold publish_all in *. cbn [fold_left fst snd]. rewrite IH, Hstep.
      cbn [List.filter fst]. destruct (String.eqb tp t); cbn [map]; [rewrite <- app_assoc|]; reflexivity. }
  rewrite Hgen. reflexivity.
Qed.

(** C7: the tenant validator answers 400 exactly when X-Tenant-ID is absent
    (read as the empty string) or its length is outside [3, 63]; for a
    value of length 3 to 63 it calls the next handler with that value
    unchanged as the request's tenant scope. *)
Theorem C7_tenant_validator_exact {P : Type} (jwtPublicKey : string)
    (next : Handler P) (r : Request) (env : Env) (s : P) :
  TenantValidator jwtPublicKey next r env s =
  if (Nat.leb 3 (String.length r.(hdr_tenant)) && Nat.leb (String.length r.(hdr_tenant)) 63)%bool
  then next (with_ctx_tenant r r.(hdr_tenant)) env s
  else (HttpError 400 (if String.eqb r.(hdr_tenant) EmptyString
                       then "Missing X-Tenant-ID header" else "Invalid tenant ID format"), s).
Proof.
  unfold TenantValidator.
  destruct (String.eqb_spec r.(hdr_tenant) EmptyString) as [He|Hne].
  - rewrite He. reflexivity.
  - destruct (Nat.ltb_spec (String.length r.(hdr_tenant)) 3);
    destruct (Nat.ltb_spec 63 (String.length r.(hdr_tenant)));
    destruct (Nat.leb_spec 3 (String.length r.(hdr_tenant)));
    destruct (Nat.leb_spec (String.length r.(hdr_tenant)) 63);
    simpl; try reflexivity; lia.
Qed.

(** C2: every response of the ingest chain other than acceptance and the
    500 of a failed publish (so every rejection: tenant header, missing or
    invalid authorization, tenant mismatch, method, body, JSON, category)
    leaves the publisher's state as it was: no [Publish] is made. *)
Theorem C2_rejection_before_publish {P : Type} `{Publisher P}
    (json_unmarshal : string -> option Event) (jwt_parse : string -> string -> option Claims)
    (jwtPublicKey : string) (r : Request) (env : Env) (s s' : P) (resp : Response)
    (Hrun : ingest_chain json_unmarshal jwt_parse jwtPublicKey r env s = (resp, s'))
    (Hnacc : forall eid, resp <> Accepted eid)
    (Hn500 : resp <> HttpError 500 "Internal server error") :
  s' = s.
Proof.
  rewrite ingest_chain_eq in Hrun. unfold_chain.
  repeat (case_match; simplify_eq/=); try reflexivity;
    try (exfalso; eapply Hnacc; reflexivity); congruence.
Qed.

(** C5: with a verification key configured, the chain answers 400 for a
    missing X-Tenant-ID header; for a well-formed header, 401 for a missing
    Authorization header or a token that does not parse as valid, and 403
    ("Tenant ID mismatch") for a valid token whose tenant_id claim differs
    from the header. *)
Theorem C5_mismatch_forbidden {P : Type} `{Publisher P}
    (json_unmarshal : string -> option Event) (jwt_parse : string -> string -> option Claims)
    (jwtPublicKey : string) (Hkey : jwtPublicKey <> EmptyString)
    (r : Request) (env : Env) (s : P) :
  (r.(hdr_tenant) = EmptyString ->
     ingest_chain json_unmarshal jwt_parse jwtPublicKey r env s
     = (HttpError 400 "Missing X-Tenant-ID header", s)) /\
  ((3 <= String.length r.(hdr_tenant) <= 63)%nat ->
     (r.(hdr_authorization) = EmptyString ->
        ingest_chain json_unmarshal jwt_parse jwtPublicKey r env s
        = (HttpError 401 "Missing Authorization header", s)) /\
     (forall tok, r.(hdr_authorization) = ("Bearer " ++ tok)%string ->
        jwt_parse jwtPublicKey tok = None ->
        ingest_chain json_unmarshal jwt_parse jwtPublicKey r env s
        = (HttpError 401 "Invalid token", s)) /\
     (forall tok claims jwtTenantID,
        r.(hdr_authorization) = ("Bearer " ++ tok)%string ->
        jwt_parse jwtPublicKey tok = Some claims ->
        claims !! "tenant_id" = Some (JStr jwtTenantID) ->
        jwtTenantID <> r.(hdr_tenant) ->
        ingest_chain json_unmarshal jwt_parse jwtPublicKey r env s
        = (HttpError 403 "Tenant ID mismatch", s))).
Proof.
  rewrite ingest_chain_eq. unfold RequestLogger, TenantValidator, JWTAuth.
  split.
  - intros He. rewrite He. reflexivity.
  - intros [Hlo Hhi].
    assert (Hne : String.eqb r.(hdr_tenant) EmptyString = false).
    { destruct (hdr_tenant r); [simpl in Hlo; lia | reflexivity]. }
    assert (Hlen : (Nat.ltb (String.length r.(hdr_tenant)) 3
                    || Nat.ltb 63 (String.length r.(hdr_tenant)))%bool = false).
    { apply orb_false_iff; split; apply Nat.ltb_ge; lia. }
    assert (Hk : String.eqb jwtPublicKey EmptyString = false)
      by (apply String.eqb_neq; exact Hkey).
    rewrite Hne, Hlen. cbn [hdr_authorization ctx_tenant_id with_ctx_tenant].
    split_and!.
    + intros Ha. rewrite Ha. reflexivity.
    + intros tok Ha Hp. rewrite Ha, has_prefix_app, trim_prefix_app, Hk.
      rewrite Hp. destruct tok; reflexivity.
    + intros tok claims c Ha Hp Hc Hdiff.
      rewrite Ha, has_prefix_app, trim_prefix_app, Hk, Hp, Hc.
      assert (Hd : String.eqb c r.(hdr_tenant) = false) by (apply String.eqb_neq; exact Hdiff).
      rewrite Hd. destruct tok; reflexivity.
Qed.

(** C6: an accepted request publishes an event whose event_id is the
    value of [uuid.New()] drawn at ingress and whose tenant_id is the
    tenant scope of the request context (the X-Tenant-ID value the tenant
    validator stored); the published event is the same whatever tenant_id
    and event_id the caller's JSON body supplied. *)
Theorem C6_ids_assigned_at_ingress {P : Type} `{Publisher P}
    (json_unmarshal : string -> option Event) (jwt_parse : string -> string -> option Claims)
    (jwtPublicKey : string) (r : Request) (env : Env) (s s' : P) (eid : string)
    (Hrun : ingest_chain json_unmarshal jwt_parse jwtPublicKey r env s = (Accepted eid, s')) :
  exists body ev published_event,
    r.(req_body) = Some body /\ json_unmarshal body = Some ev /\
    Publish (ingest_topic r.(hdr_tenant)) published_event s = (None, s') /\
    published_event.(event_id) = env.(uuid_new) /\ eid = env.(uuid_new) /\
    published_event.(tenant_id) = r.(hdr_tenant) /\
    (forall caller_tid caller_eid,
       enrich (with_caller_ids ev caller_tid caller_eid) r.(hdr_tenant) env r
       = published_event).
Proof.
  destruct (ingest_chain_accepted _ _ _ _ _ _ _ _ Hrun) as (body & ev & Hb & Hj & He & Hp).
  exists body, ev, (enrich ev r.(hdr_tenant) env r).
  split_and!; auto.
Qed.

(** C8: an accepted request is published on the topic "raw.events."
    followed by its tenant id and on no other; distinct tenants get
    distinct topics. *)
Theorem C8_topic_from_tenant {P : Type} `{Publisher P}
    (json_unmarshal : string -> option Event) (jwt_parse : string -> string -> option Claims)
    (jwtPublicKey : string) (r : Request) (env : Env) (s s' : P) (eid : string)
    (Hrun : ingest_chain json_unmarshal jwt_parse jwtPublicKey r env s = (Accepted eid, s')) :
  (exists ev, Publish ("raw.events." ++ r.(hdr_tenant))%string ev s = (None, s')) /\
  (forall t1 t2, t1 <> t2 -> ingest_topic t1 <> ingest_topic t2).
Proof.
  split.
  - destruct (ingest_chain_accepted _ _ _ _ _ _ _ _ Hrun) as (body & ev & _ & _ & _ & Hp).
    eexists. exact Hp.
  - intros t1 t2 Hne Heq. apply Hne, ingest_topic_inj, Heq.
Qed.

(** C3, as stated (refuted): with no JWT key configured (the default), a
    request whose category "bogus" lies outside
    auth|endpoint|network|cloud|k8s|storage|ops is accepted and its event
    published on raw.events.acme-corp. *)
Lemma C3_non_enum_category_accepted :
  fst (run_chain EmptyString
         (sample_request "acme-corp" "Bearer dev-token" "POST" body_bogus))
  = Accepted "uuid-1" /\
  map category (GetPublished "raw.events.acme-corp"
    (snd (run_chain EmptyString
            (sample_request "acme-corp" "Bearer dev-token" "POST" body_bogus))))
  = ["bogus"%string].
Proof. vm_compute. split; reflexivity. Qed.

(** C3, as amended: IngestEvents answers 400 "Missing required field:
    category" when the decoded category is empty (absent from the body);
    any non-empty category, in the enumeration or not, goes on unchecked
    to the single [Publish] of the enriched event. *)
Theorem C3_category_required_not_enumerated {P : Type} `{Publisher P}
    (json_unmarshal : string -> option Event) (r : Request) (env : Env) (s : P)
    (tid body : string) (ev : Event)
    (Hm : r.(req_method) = "POST"%string) (Ht : r.(ctx_tenant_id) = Some tid)
    (Htid : tid <> EmptyString) (Hb : r.(req_body) = Some body)
    (Hj : json_unmarshal body = Some ev) :
  (ev.(category) = EmptyString ->
     IngestEvents json_unmarshal r env s
     = (HttpError 400 "Missing required field: category", s)) /\
  (ev.(category) <> EmptyString ->
     IngestEvents json_unmarshal r env s
     = match Publish (ingest_topic tid) (enrich ev tid env r) s with
       | (Some _, s') => (HttpError 500 "Internal server error", s')
       | (None, s') => (Accepted env.(uuid_new), s')
       end).
Proof.
  unfold IngestEvents. rewrite Hm, Ht, Hb, Hj.
  assert (Ht' : String.eqb tid EmptyString = false) by (apply String.eqb_neq; exact Htid).
  rewrite Ht'. cbn [String.eqb negb Ascii.eqb Bool.eqb].
  split.
  - intros Hc. rewrite Hc. reflexivity.
  - intros Hc. apply String.eqb_neq in Hc. rewrite Hc.
    destruct (Publish (ingest_topic tid) (enrich ev tid env r) s) as [[e|] s']; reflexivity.
Qed.

(** C1, as stated (refuted): with no key configured, a request with
    X-Tenant-ID acme-corp whose bearer token carries tenant_id other-corp
    passes JWTAuth, reaches the ingest handler and is published. *)
Lemma C1_dev_mode_mismatch_reaches_handler :
  (sample_jwt_parse EmptyString "tok-other" ≫= lookup "tenant_id")
    = Some (JStr "other-corp") /\
  fst (run_chain EmptyString (sample_request "acme-corp" "Bearer tok-other" "POST" body_auth))
    = Accepted "uuid-1" /\
  length (GetPublished "raw.events.acme-corp"
    (snd (run_chain EmptyString (sample_request "acme-corp" "Bearer tok-other" "POST" body_auth))))
    = 1%nat.
Proof. vm_compute. split_and!; reflexivity. Qed.

(** C1, as amended: with publicKey = "", JWTAuth answers 401 for a missing
    or non-Bearer Authorization header and otherwise calls the inner
    handler on the unchanged request without looking at the token, so no
    claim/header comparison is made. *)
Theorem C1_dev_mode_skips_token {P : Type}
    (jwt_parse : string -> string -> option Claims) (next : Handler P)
    (r : Request) (env : Env) (s : P) :
  (r.(hdr_authorization) = EmptyString ->
     JWTAuth jwt_parse EmptyString next r env s
     = (HttpError 401 "Missing Authorization header", s)) /\
  (r.(hdr_authorization) <> EmptyString ->
   has_prefix "Bearer " r.(hdr_authorization) = false ->
     JWTAuth jwt_parse EmptyString next r env s
     = (HttpError 401 "Invalid Authorization header format", s)) /\
  (forall tok, r.(hdr_authorization) = ("Bearer " ++ tok)%string ->
     JWTAuth jwt_parse EmptyString next r env s = next r env s).
Proof.
  unfold JWTAuth. split_and!.
  - intros Ha. rewrite Ha. reflexivity.
  - intros Hne Hp. apply String.eqb_neq in Hne. rewrite Hne, Hp. reflexivity.
  - intros tok Ha. rewrite Ha, has_prefix_app. destruct tok; reflexivity.
Qed.

(** C4: [increment] at time t keeps the observations still inside the
    window (it discards every one older than t - W), adds one at t and
    returns their count including the new one.  Whatever operations on any
    entries follow (increments and gets, the ones on this entry with window
    W and no later than the query), the observation recorded at t adds one
    to [get] at every query time q in [t, t + W) and nothing at any q at or
    after t + W: the count is that of the same run without it, plus one
    exactly when q < t + W. *)
Theorem C4_window_contribution (tenant key : string) (W t q : Z)
    (st : WindowedStore.Store) (ops : list WindowedStore.Op)
    (Hq : t <= q)
    (Hops : Forall (fun op => WindowedStore.op_key op = (tenant, key) ->
                      WindowedStore.op_window op = W /\ WindowedStore.op_time op <= q) ops) :
  fst (WindowedStore.increment tenant key W t st)
  = (length (WindowedStore.prune t W (WindowedStore.entry tenant key st)) + 1)%nat /\
  fst (WindowedStore.get tenant key W q
         (WindowedStore.run ops (snd (WindowedStore.increment tenant key W t st))))
  = (fst (WindowedStore.get tenant key W q (WindowedStore.run ops st))
     + (if Z.ltb q (t + W) then 1 else 0))%nat.
Proof.
  split.
  - unfold WindowedStore.increment. cbn [fst]. apply length_app.
  - assert (Hw : Forall (fun op => WindowedStore.op_key op = (tenant, key) ->
                                   WindowedStore.op_window op = W) ops).
    { eapply Forall_impl; [exact Hops|]. intros op Hop Hk. exact (proj1 (Hop Hk)). }
    destruct (run_entry_split tenant key W t ops Hw st
                (snd (WindowedStore.increment tenant key W t st))
                (WindowedStore.entry tenant key st) [] true) as (A' & B' & b' & E0 & E1 & Hb).
    + rewrite app_nil_r. reflexivity.
    + apply (entry_step_same tenant key st (WindowedStore.OpIncrement tenant key W t)).
      reflexivity.
    + unfold WindowedStore.get. cbn [fst].
      rewrite E0, E1, !prune_app, prune_absorb by exact Hq.
      rewrite prune_single, !length_app.
      destruct (Z.ltb_spec q (t + W)) as [Hlt|Hge].
      * assert (Hb' : b' = true).
        { apply Hb. split; [reflexivity|].
          eapply Forall_impl; [exact Hops|]. intros op Hop Hk. destruct (Hop Hk). lia. }
        rewrite Hb'. replace (Z.ltb (q - W) t) with true by (symmetry; apply Z.ltb_lt; lia).
        cbn. lia.
      * replace (Z.ltb (q - W) t) with false by (symmetry; apply Z.ltb_ge; lia).
        rewrite andb_false_r. cbn. lia.
Qed.

(* ------------------------------------------------------------------ *)
(** * Witnesses: the theorems with hypotheses, at concrete inputs *)

Definition req_mismatch : Request :=
  sample_request "acme-corp" "Bearer tok-other" "POST" body_auth.
Definition req_ok : Request :=
  sample_request "acme-corp" "Bearer tok-acme" "POST" body_auth.
Definition req_nocat : Request :=
  sample_request "acme-corp" "Bearer dev-token" "POST" body_no_category.
Definition req_bogus_in_handler : Request :=
  mkRequest "POST" "/v1/ingest/events" "acme-corp" "Bearer tok-acme"
    (Some body_bogus) "10.0.0.7:5555" (Some "acme-corp"%string) None.

Lemma C2_witness :
  run_chain EmptyString req_nocat
  = (HttpError 400 "Missing required field: category", NewMockPublisher) /\
  NewMockPublisher = NewMockPublisher.
Proof.
  split; [vm_compute; reflexivity|].
  apply (C2_rejection_before_publish (P:=MockPublisher) sample_unmarshal sample_jwt_parse
           EmptyString req_nocat sample_env NewMockPublisher NewMockPublisher
           (HttpError 400 "Missing required field: category")).
  - vm_compute. reflexivity.
  - intros eid. discriminate.
  - discriminate.
Defined.

Lemma C3_witness :
  (category (event_with_category "bogus") = EmptyString ->
     IngestEvents sample_unmarshal req_bogus_in_handler sample_env NewMockPublisher
     = (HttpError 400 "Missing required field: category", NewMockPublisher)) /\
  (category (event_with_category "bogus") <> EmptyString ->
     IngestEvents sample_unmarshal req_bogus_in_handler sample_env NewMockPublisher
     = match Publish (ingest_topic "acme-corp") (enrich (event_with_category "bogus")
                        "acme-corp" sample_env req_bogus_in_handler) NewMockPublisher with
       | (Some _, s') => (HttpError 500 "Internal server error", s')
       | (None, s') => (Accepted sample_env.(uuid_new), s')
       end).
Proof.
  apply (C3_category_required_not_enumerated (P:=MockPublisher) sample_unmarshal
           req_bogus_in_handler sample_env NewMockPublisher "acme-corp" body_bogus
           (event_with_category "bogus")).
  - reflexivity.
  - reflexivity.
  - discriminate.
  - reflexivity.
  - vm_compute. reflexivity.
Defined.

Lemma C5_witness :
  (req_mismatch.(hdr_tenant) = EmptyString ->
     run_chain "k" req_mismatch = (HttpError 400 "Missing X-Tenant-ID header", NewMockPublisher)) /\
  ((3 <= String.length req_mismatch.(hdr_tenant) <= 63)%nat ->
     (req_mismatch.(hdr_authorization) = EmptyString ->
        run_chain "k" req_mismatch = (HttpError 401 "Missing Authorization header", NewMockPublisher)) /\
     (forall tok, req_mismatch.(hdr_authorization) = ("Bearer " ++ tok)%string ->
        sample_jwt_parse "k" tok = None ->
        run_chain "k" req_mismatch = (HttpError 401 "Invalid token", NewMockPublisher)) /\
     (forall tok claims jwtTenantID,
        req_mismatch.(hdr_authorization) = ("Bearer " ++ tok)%string ->
        sample_jwt_parse "k" tok = Some claims ->
        claims !! "tenant_id" = Some (JStr jwtTenantID) ->
        jwtTenantID <> req_mismatch.(hdr_tenant) ->
        run_chain "k" req_mismatch = (HttpError 403 "Tenant ID mismatch", NewMockPublisher))).
Proof.
  apply (C5_mismatch_forbidden (P:=MockPublisher) sample_unmarshal sample_jwt_parse "k").
  discriminate.
Defined.

Lemma C6_witness :
  exists body ev published_event,
    req_ok.(req_body) = Some body /\ sample_unmarshal body = Some ev /\
    Publish (ingest_topic req_ok.(hdr_tenant)) published_event NewMockPublisher
      = (None, snd (run_chain EmptyString req_ok)) /\
    published_event.(event_id) = sample_env.(uuid_new) /\
    "uuid-1"%string = sample_env.(uuid_new) /\
    published_event.(tenant_id) = req_ok.(hdr_tenant) /\
    (forall caller_tid caller_eid,
       enrich (with_caller_ids ev caller_tid caller_eid) req_ok.(hdr_tenant) sample_env req_ok
       = published_event).
Proof.
  apply (C6_ids_assigned_at_ingress (P:=MockPublisher) sample_unmarshal sample_jwt_parse
           EmptyString req_ok sample_env NewMockPublisher (snd (run_chain EmptyString req_ok)) "uuid-1").
  vm_compute. reflexivity.
Defined.

Lemma C8_witness :
  (exists ev, Publish ("raw.events." ++ req_ok.(hdr_tenant))%string ev NewMockPublisher
              = (None, snd (run_chain EmptyString req_ok))) /\
  (forall t1 t2, t1 <> t2 -> ingest_topic t1 <> ingest_topic t2).
Proof.
  apply (C8_topic_from_tenant (P:=MockPublisher) sample_unmarshal sample_jwt_parse
           EmptyString req_ok sample_env NewMockPublisher (snd (run_chain EmptyString req_ok)) "uuid-1").
  vm_compute. reflexivity.
Defined.

Lemma C4_witness :
  fst (WindowedStore.get "acme-corp" "user123" 300 299
         (WindowedStore.run ws_ops
            (snd (WindowedStore.increment "acme-corp" "user123" 300 0 ∅)))) = 2%nat /\
  fst (WindowedStore.get "acme-corp" "user123" 300 300
         (WindowedStore.run ws_ops
            (snd (WindowedStore.increment "acme-corp" "user123" 300 0 ∅)))) = 1%nat.
Proof.
  assert (Hops : forall q, 100 <= q ->
            Forall (fun op => WindowedStore.op_key op = ("acme-corp", "user123")%string ->
                      WindowedStore.op_window op = 300 /\ WindowedStore.op_time op <= q) ws_ops).
  { intros q Hq. unfold ws_ops.
    apply List.Forall_cons; [| apply List.Forall_cons; [| apply List.Forall_nil]];
      cbn; intros Hk;
      first [split; [reflexivity | lia] | discriminate]. }
  split.
  - destruct (C4_window_contribution "acme-corp" "user123" 300 0 299 ∅ ws_ops
                ltac:(lia) (Hops 299 ltac:(lia))) as [_ H].
    rewrite H. vm_compute. reflexivity.
  - destruct (C4_window_contribution "acme-corp" "user123" 300 0 300 ∅ ws_ops
                ltac:(lia) (Hops 300 ltac:(lia))) as [_ H].
    rewrite H. vm_compute. reflexivity.
Defined.

(* ------------------------------------------------------------------ *)
(** * Further properties of the ingest service *)

Lemma mock_get_publish (t tp : string) (ev : Event) (m : MockPublisher) :
  GetPublished t (snd (Publish tp ev m))
  = if String.eqb tp t then GetPublished t m ++ [ev] else GetPublished t m.
Proof.
  unfold GetPublished at 1. simpl.
  destruct (String.eqb_spec tp t) as [->|Hne].
  - rewrite lookup_insert_eq. reflexivity.
  - rewrite lookup_insert_ne by congruence. reflexivity.
Qed.

(** One request through the chain either leaves the publisher as it was
    and is not accepted, or makes one [Publish] on the topic of its
    X-Tenant-ID header of an event of that tenant carrying the ingress id;
    it is accepted exactly when that [Publish] returns nil. *)
Lemma ingest_chain_step {P : Type} `{Publisher P}
    (json_unmarshal : string -> option Event) (jwt_parse : string -> string -> option Claims)
    (jwtPublicKey : string) (r : Request) (env : Env) (s s' : P) (resp : Response) :
  ingest_chain json_unmarshal jwt_parse jwtPublicKey r env s = (resp, s') ->
  (s' = s /\ forall eid, resp <> Accepted eid) \/
  exists ev o, Publish (ingest_topic r.(hdr_tenant)) ev s = (o, s') /\
    ev.(tenant_id) = r.(hdr_tenant) /\ ev.(event_id) = env.(uuid_new) /\
    ((o = None /\ resp = Accepted env.(uuid_new)) \/
     (o <> None /\ resp = HttpError 500 "Internal server error")).
Proof.
  intros Hrun. rewrite ingest_chain_eq in Hrun. unfold_chain.
  repeat (case_match; simplify_eq/=);
    first [ left; split; [reflexivity | intros ? ?; discriminate]
          | right; eexists _, _; split_and!; [eassumption | reflexivity | reflexivity | ];
            first [left; split; reflexivity | right; split; [discriminate | reflexivity]] ].
Qed.

(** Extra: [Load] never yields an empty port, NATS URL or log level, and
    each is the environment variable's value when that is set and
    non-empty; the JWT key is empty exactly when JWT_PUBLIC_KEY is unset or
    empty. *)
Theorem Load_fields (vars : Environ) :
  (Load vars).(Port) <> EmptyString /\
  (Load vars).(NATSURL) <> EmptyString /\
  (Load vars).(LogLevel) <> EmptyString /\
  ((Load vars).(JWTPublicKey) = EmptyString <-> Getenv vars "JWT_PUBLIC_KEY" = EmptyString) /\
  (forall key, Getenv vars key <> EmptyString ->
     key = "PORT"%string \/ key = "NATS_URL"%string \/ key = "JWT_PUBLIC_KEY"%string
     \/ key = "LOG_LEVEL"%string ->
     Getenv vars key = match key with
                       | "PORT" => (Load vars).(Port)
                       | "NATS_URL" => (Load vars).(NATSURL)
                       | "JWT_PUBLIC_KEY" => (Load vars).(JWTPublicKey)
                       | _ => (Load vars).(LogLevel)
                       end%string).
Proof.
  assert (Hg : forall key d, getEnv vars key d
                 = if String.eqb (Getenv vars key) EmptyString then d else Getenv vars key).
  { intros key d. unfold getEnv. destruct (String.eqb (Getenv vars key) EmptyString); reflexivity. }
  unfold Load; cbn [Port NATSURL LogLevel JWTPublicKey]. rewrite !Hg.
  split_and!.
  - destruct (String.eqb_spec (Getenv vars "PORT") EmptyString); [discriminate|assumption].
  - destruct (String.eqb_spec (Getenv vars "NATS_URL") EmptyString); [discriminate|assumption].
  - destruct (String.eqb_spec (Getenv vars "LOG_LEVEL") EmptyString); [discriminate|assumption].
  - destruct (String.eqb_spec (Getenv vars "JWT_PUBLIC_KEY") EmptyString); tauto.
  - intros key Hne Hk. apply String.eqb_neq in Hne.
    destruct Hk as [ -> | [ -> | [ -> | -> ] ] ]; cbn beta iota; rewrite Hne; reflexivity.
Qed.

(** Extra: [Chain] with no middleware is the handler itself, and chaining
    a concatenation nests the chains: the first list wraps the second. *)
Theorem Chain_compose {P : Type} (handler : Handler P) (ms1 ms2 : list (Middleware P)) :
  Chain handler [] = handler /\
  Chain handler (ms1 ++ ms2) = Chain (Chain handler ms2) ms1.
Proof.
  split; [reflexivity|].
  unfold Chain. rewrite rev_app_distr, fold_left_app. reflexivity.
Qed.

(** Extra: [strings.HasPrefix] and [strings.TrimPrefix] as used on the
    Authorization header: the prefix is recognised on [pre ++ rest] and
    trimming gives [rest]; a string with the prefix is the prefix followed
    by its trimmed rest; a string without it is left unchanged. *)
Theorem prefix_trim_roundtrip :
  (forall pre rest, has_prefix pre (pre ++ rest) = true /\ trim_prefix pre (pre ++ rest) = rest) /\
  (forall pre s, has_prefix pre s = true -> s = (pre ++ trim_prefix pre s)%string) /\
  (forall pre s, has_prefix pre s = false -> trim_prefix pre s = s).
Proof.
  split_and!.
  - intros pre rest. split; [apply has_prefix_app | apply trim_prefix_app].
  - exact has_prefix_split.
  - exact has_prefix_false_trim.
Qed.

(** Extra: the ingest chain never panics: JWTAuth's assertion on the
    context's tenant_id cannot fail, since TenantValidator runs first and
    always sets it. *)
Theorem ingest_chain_no_panic {P : Type} `{Publisher P}
    (json_unmarshal : string -> option Event) (jwt_parse : string -> string -> option Claims)
    (jwtPublicKey : string) (r : Request) (env : Env) (s : P) (msg : string) :
  fst (ingest_chain json_unmarshal jwt_parse jwtPublicKey r env s) <> Panic msg.
Proof.
  rewrite ingest_chain_eq. unfold_chain.
  repeat (case_match; simplify_eq/=); discriminate.
Qed.

Lemma authMux_accepted {P : Type} `{Publisher P}
    (json_unmarshal : string -> option Event) (r : Request) (env : Env) (s s' : P) (eid : string) :
  authMux json_unmarshal r env s = (Accepted eid, s') ->
  r.(req_path) = "/v1/ingest/events"%string /\ r.(req_method) = "POST"%string /\
  (exists body ev, r.(req_body) = Some body /\ json_unmarshal body = Some ev /\
     ev.(category) <> EmptyString) /\
  eid = env.(uuid_new).
Proof.
  unfold authMux, IngestEvents. intros Hrun.
  repeat (case_match; simplify_eq/=).
  repeat match goal with
         | Hb : String.eqb _ _ = true |- _ => apply String.eqb_eq in Hb
         | Hb : String.eqb _ _ = false |- _ => apply String.eqb_neq in Hb
         | Hb : negb _ = false |- _ => apply negb_false_iff in Hb
         end.
  split_and!; eauto 7.
Qed.

(** Extra: a request the ingest chain accepts was a POST to
    /v1/ingest/events with an X-Tenant-ID of 3 to 63 bytes, a Bearer
    Authorization header and a body decoding to an event with a non-empty
    category; when a key is configured its token parsed as valid with a
    string tenant_id claim equal to the header.  The answered id is the
    ingress UUID. *)
Theorem ingest_chain_accept_requires {P : Type} `{Publisher P}
    (json_unmarshal : string -> option Event) (jwt_parse : string -> string -> option Claims)
    (jwtPublicKey : string) (r : Request) (env : Env) (s s' : P) (eid : string)
    (Hrun : ingest_chain json_unmarshal jwt_parse jwtPublicKey r env s = (Accepted eid, s')) :
  r.(req_path) = "/v1/ingest/events"%string /\ r.(req_method) = "POST"%string /\
  (3 <= String.length r.(hdr_tenant) <= 63)%nat /\
  (exists tok, r.(hdr_authorization) = ("Bearer " ++ tok)%string /\
     (jwtPublicKey <> EmptyString -> exists claims,
        jwt_parse jwtPublicKey tok = Some claims /\
        claims !! "tenant_id" = Some (JStr r.(hdr_tenant)))) /\
  (exists body ev, r.(req_body) = Some body /\ json_unmarshal body = Some ev /\
     ev.(category) <> EmptyString) /\
  eid = env.(uuid_new).
Proof.
  rewrite ingest_chain_eq in Hrun. unfold RequestLogger, TenantValidator, JWTAuth in Hrun.
  destruct (String.eqb (hdr_tenant r) EmptyString) eqn:E1; [discriminate|].
  destruct (Nat.ltb (String.length (hdr_tenant r)) 3
            || Nat.ltb 63 (String.length (hdr_tenant r)))%bool eqn:E2; [discriminate|].
  apply orb_false_iff in E2 as [E2a E2b]. apply Nat.ltb_ge in E2a, E2b.
  cbn [hdr_authorization ctx_tenant_id with_ctx_tenant] in Hrun.
  destruct (String.eqb (hdr_authorization r) EmptyString) eqn:E3; [discriminate|].
  destruct (has_prefix "Bearer " (hdr_authorization r)) eqn:E4; [|discriminate].
  cbn [negb] in Hrun.
  pose proof (has_prefix_split _ _ E4) as Ha.
  set (tok := trim_prefix "Bearer " (hdr_authorization r)) in *.
  destruct (String.eqb jwtPublicKey EmptyString) eqn:E5.
  - apply authMux_accepted in Hrun as (Hp & Hm & Hb & He). cbn in Hp, Hm, Hb.
    refine (conj Hp (conj Hm (conj (conj E2a E2b) (conj _ (conj Hb He))))).
    exists tok. split; [exact Ha|]. intros Hk. apply String.eqb_eq in E5. contradiction.
  - destruct (jwt_parse jwtPublicKey tok) as [claims|] eqn:E6; [|discriminate].
    destruct (claims !! "tenant_id") as [[c| | | |]|] eqn:E7; try discriminate.
    destruct (String.eqb c (hdr_tenant r)) eqn:E8; [|discriminate].
    apply String.eqb_eq in E8. subst c. cbn [negb] in Hrun.
    destruct (claims !! "sub") as [[u| | | |]|];
      apply authMux_accepted in Hrun as (Hp & Hm & Hb & He); cbn in Hp, Hm, Hb;
      (refine (conj Hp (conj Hm (conj (conj E2a E2b) (conj _ (conj Hb He)))));
       exists tok; split; [exact Ha | intros _; eauto]).
Qed.

(** Extra: with the mock publisher (whose [Publish] never fails) those
    conditions are also enough: such a request is accepted with the ingress
    UUID and its enriched event appended to raw.events.<tenant>. *)
Theorem ingest_chain_accept_sufficient
    (json_unmarshal : string -> option Event) (jwt_parse : string -> string -> option Claims)
    (jwtPublicKey : string) (r : Request) (env : Env) (s : MockPublisher)
    (tok body : string) (ev : Event)
    (Hpath : r.(req_path) = "/v1/ingest/events"%string) (Hm : r.(req_method) = "POST"%string)
    (Hlen : (3 <= String.length r.(hdr_tenant) <= 63)%nat)
    (Ha : r.(hdr_authorization) = ("Bearer " ++ tok)%string)
    (Hjwt : jwtPublicKey <> EmptyString -> exists claims,
              jwt_parse jwtPublicKey tok = Some claims /\
              claims !! "tenant_id" = Some (JStr r.(hdr_tenant)))
    (Hb : r.(req_body) = Some body) (Hj : json_unmarshal body = Some ev)
    (Hc : ev.(category) <> EmptyString) :
  ingest_chain json_unmarshal jwt_parse jwtPublicKey r env s
  = (Accepted env.(uuid_new),
     snd (Publish (ingest_topic r.(hdr_tenant)) (enrich ev r.(hdr_tenant) env r) s)).
Proof.
  assert (E1 : String.eqb (hdr_tenant r) EmptyString = false).
  { apply String.eqb_neq. intros He. rewrite He in Hlen. simpl in Hlen. lia. }
  assert (E2 : (Nat.ltb (String.length (hdr_tenant r)) 3
                || Nat.ltb 63 (String.length (hdr_tenant r)))%bool = false).
  { apply orb_false_iff; split; apply Nat.ltb_ge; lia. }
  assert (Hin : forall r', r'.(req_path) = r.(req_path) -> r'.(req_method) = r.(req_method) ->
            r'.(req_body) = r.(req_body) -> r'.(ctx_tenant_id) = Some r.(hdr_tenant) ->
            r'.(remote_addr) = r.(remote_addr) ->
            authMux json_unmarshal r' env s
            = (Accepted env.(uuid_new),
               snd (Publish (ingest_topic r.(hdr_tenant)) (enrich ev r.(hdr_tenant) env r) s))).
  { intros r' P1 P2 P3 P4 P5. unfold authMux, IngestEvents, enrich.
    rewrite P1, P2, P3, P4, P5, Hpath, Hm, Hb, Hj, E1. cbn [String.eqb negb Ascii.eqb Bool.eqb].
    apply String.eqb_neq in Hc. rewrite Hc. reflexivity. }
  rewrite ingest_chain_eq. unfold RequestLogger, TenantValidator, JWTAuth.
  rewrite E1, E2. cbn [hdr_authorization ctx_tenant_id with_ctx_tenant].
  rewrite Ha, has_prefix_app, trim_prefix_app.
  assert (E3 : String.eqb ("Bearer " ++ tok) EmptyString = false) by reflexivity.
  rewrite E3. cbn [negb].
  destruct (String.eqb_spec jwtPublicKey EmptyString) as [Hk|Hk].
  - apply Hin; reflexivity.
  - destruct (Hjwt Hk) as (claims & Hp & Hct). rewrite Hp, Hct, String.eqb_refl. cbn [negb].
    destruct (claims !! "sub") as [[u| | | |]|]; apply Hin; reflexivity.
Qed.

Lemma mock_publish_ok (tp : string) (ev : Event) (m : MockPublisher) (o : option string)
    (m' : MockPublisher) :
  Publish tp ev m = (o, m') -> o = None /\ m' = snd (Publish tp ev m).
Proof. intros Hp. rewrite Hp. simpl in Hp. inversion Hp. auto. Qed.

Lemma mock_publish_scoped (t : string) (ev : Event) (m : MockPublisher) :
  topics_tenant_scoped m -> ev.(tenant_id) = t ->
  topics_tenant_scoped (snd (Publish (ingest_topic t) ev m)).
Proof.
  intros Hs Ht topic evs ev' Hl Hin. simpl in Hl.
  destruct (String.eqb_spec topic (ingest_topic t)) as [->|Hne].
  - rewrite lookup_insert_eq in Hl. injection Hl as <-.
    apply elem_of_app in Hin as [Hin|Hin].
    + unfold GetPublished in Hin.
      destruct (published m !! ingest_topic t) as [evs0|] eqn:El; simpl in Hin.
      * exact (Hs _ _ _ El Hin).
      * apply not_elem_of_nil in Hin. contradiction.
    + apply list_elem_of_singleton in Hin. subst ev'. rewrite Ht. reflexivity.
  - rewrite lookup_insert_ne in Hl by congruence. exact (Hs _ _ _ Hl Hin).
Qed.

(** Extra: over any sequence of requests handled by the ingest chain from
    a fresh mock publisher, every stored event lies on the topic
    raw.events.<its own tenant_id>: no topic ever holds another tenant's
    event. *)
Theorem serve_all_tenant_scoped
    (json_unmarshal : string -> option Event) (jwt_parse : string -> string -> option Claims)
    (jwtPublicKey : string) (reqs : list (Request * Env)) :
  topics_tenant_scoped
    (snd (serve_all (ingest_chain json_unmarshal jwt_parse jwtPublicKey) reqs NewMockPublisher)).
Proof.
  assert (Hgen : forall s, topics_tenant_scoped s ->
            topics_tenant_scoped
              (snd (serve_all (ingest_chain json_unmarshal jwt_parse jwtPublicKey) reqs s))).
  { induction reqs as [|[r env] reqs IH]; intros s Hs; [exact Hs|].
    cbn [serve_all].
    destruct (ingest_chain json_unmarshal jwt_parse jwtPublicKey r env s) as [resp s1] eqn:E.
    destruct (serve_all (ingest_chain json_unmarshal jwt_parse jwtPublicKey) reqs s1)
      as [resps s2] eqn:E2.
    cbn [snd]. specialize (IH s1). rewrite E2 in IH. apply IH.
    destruct (ingest_chain_step _ _ _ _ _ _ _ _ E) as [[-> _] | (ev & o & Hp & Ht & _ & _)].
    - exact Hs.
    - apply mock_publish_ok in Hp as [_ ->]. apply mock_publish_scoped; assumption. }
  apply Hgen. intros topic evs ev Hl. simpl in Hl. rewrite lookup_empty in Hl. discriminate.
Qed.

(** Extra: over any sequence of requests handled by the ingest chain with
    the mock publisher, the event ids added to raw.events.<T> are exactly
    the ids answered to the accepted requests whose X-Tenant-ID is T, in
    the order they were handled. *)
Theorem serve_all_topic_ids
    (json_unmarshal : string -> option Event) (jwt_parse : string -> string -> option Claims)
    (jwtPublicKey : string) (reqs : list (Request * Env)) (s : MockPublisher) (T : string) :
  map event_id (GetPublished (ingest_topic T)
    (snd (serve_all (ingest_chain json_unmarshal jwt_parse jwtPublicKey) reqs s)))
  = map event_id (GetPublished (ingest_topic T) s)
    ++ accepted_ids T reqs
         (fst (serve_all (ingest_chain json_unmarshal jwt_parse jwtPublicKey) reqs s)).
Proof.
  revert s. induction reqs as [|[r env] reqs IH]; intros s.
  - simpl. rewrite app_nil_r. reflexivity.
  - cbn [serve_all].
    destruct (ingest_chain json_unmarshal jwt_parse jwtPublicKey r env s) as [resp s1] eqn:E.
    destruct (serve_all (ingest_chain json_unmarshal jwt_parse jwtPublicKey) reqs s1)
      as [resps s2] eqn:E2.
    cbn [fst snd]. specialize (IH s1). rewrite E2 in IH. cbn [fst snd] in IH. rewrite IH.
    destruct (ingest_chain_step _ _ _ _ _ _ _ _ E)
      as [[-> Hn] | (ev & o & Hp & Ht & Hi & [[-> ->] | [Ho ->]])].
    + destruct resp as [c m| eid | m]; [| exfalso; eapply Hn; reflexivity |];
        cbn [accepted_ids]; reflexivity.
    + apply mock_publish_ok in Hp as [_ ->]. rewrite mock_get_publish. cbn [accepted_ids].
      destruct (String.eqb_spec (ingest_topic (hdr_tenant r)) (ingest_topic T)) as [Heq|Hne].
      * apply ingest_topic_inj in Heq. rewrite Heq, String.eqb_refl.
        rewrite map_app, <- app_assoc. cbn [map app]. rewrite Hi. reflexivity.
      * destruct (String.eqb_spec (hdr_tenant r) T) as [Heq|_];
          [exfalso; apply Hne; rewrite Heq; reflexivity | reflexivity].
    + apply mock_publish_ok in Hp as [Hnone _]. contradiction.
Qed.

(** Extra: a request to any path other than /v1/ingest/events leaves the
    publisher's state as it was, whatever its headers and body. *)
Theorem server_publishes_only_on_ingest_path {P : Type} `{Publisher P}
    (json_unmarshal : string -> option Event) (jwt_parse : string -> string -> option Claims)
    (cfg : Config) (r : Request) (env : Env) (s : P)
    (Hpath : r.(req_path) <> "/v1/ingest/events"%string) :
  snd (server json_unmarshal jwt_parse cfg r env s) = s.
Proof.
  unfold server.
  destruct (String.eqb (req_path r) "/health"); [reflexivity|].
  destruct (String.eqb (req_path r) "/ready"); [reflexivity|].
  destruct (String.eqb (req_path r) "/metrics"); [reflexivity|].
  destruct (has_prefix "/v1/" (req_path r));
    [| destruct (String.eqb (req_path r) "/v1"); reflexivity].
  destruct (ingest_chain json_unmarshal jwt_parse (JWTPublicKey cfg) r env s)
    as [resp s'] eqn:E. cbn [snd].
  rewrite ingest_chain_eq in E. unfold_chain. apply String.eqb_neq in Hpath.
  repeat (case_match; simplify_eq/=); try reflexivity; congruence.
Qed.


Lemma ingest_chain_accept_requires_witness :
  ingest_chain sample_unmarshal sample_jwt_parse EmptyString req_ok sample_env NewMockPublisher
  = (Accepted "uuid-1", snd (run_chain EmptyString req_ok)) /\
  req_ok.(req_method) = "POST"%string /\ (3 <= String.length req_ok.(hdr_tenant) <= 63)%nat.
Proof.
  assert (Hrun : ingest_chain sample_unmarshal sample_jwt_parse EmptyString req_ok sample_env
                   NewMockPublisher = (Accepted "uuid-1", snd (run_chain EmptyString req_ok)))
    by (vm_compute; reflexivity).
  destruct (ingest_chain_accept_requires sample_unmarshal sample_jwt_parse EmptyString req_ok
              sample_env NewMockPublisher _ "uuid-1" Hrun) as (_ & Hm & Hl & _).
  exact (conj Hrun (conj Hm Hl)).
Defined.

Lemma ingest_chain_accept_sufficient_witness :
  ingest_chain sample_unmarshal sample_jwt_parse EmptyString req_ok sample_env NewMockPublisher
  = (Accepted "uuid-1",
     snd (Publish (ingest_topic "acme-corp")
            (enrich (event_with_category "auth") "acme-corp" sample_env req_ok)
            NewMockPublisher)).
Proof.
  apply (ingest_chain_accept_sufficient sample_unmarshal sample_jwt_parse EmptyString req_ok
           sample_env NewMockPublisher "tok-acme" body_auth (event_with_category "auth")).
  - reflexivity.
  - reflexivity.
  - cbn. lia.
  - reflexivity.
  - intros Hne. exfalso. apply Hne. reflexivity.
  - reflexivity.
  - vm_compute. reflexivity.
  - vm_compute. discriminate.
Defined.

Lemma server_publishes_only_on_ingest_path_witness :
  req_other_path.(req_path) <> "/v1/ingest/events"%string /\
  snd (server sample_unmarshal sample_jwt_parse (Load ∅) req_other_path sample_env
         NewMockPublisher) = NewMockPublisher.
Proof.
  assert (Hp : req_other_path.(req_path) <> "/v1/ingest/events"%string) by discriminate.
  exact (conj Hp (server_publishes_only_on_ingest_path sample_unmarshal sample_jwt_parse
                    (Load ∅) req_other_path sample_env NewMockPublisher Hp)).
Defined.

